(** * The Daily Functor: the Pelican settings module [pelican.conf.py]

    The repository is one Python module made of top-level assignments of
    literals.  Loading it means executing these assignments, in order, in a
    fresh module namespace; the namespace that results is the configuration
    record handed to the site generator.

    The development embeds the Python literals as an inductive type of
    values, the namespace as a finite map from names to values, and the
    module body as the list of its assignments, executed by explicit state
    passing. *)

From Stdlib Require Import ZArith.
From stdpp Require Import gmap strings list fin_maps.

Set Warnings "-register-all".

Local Open Scope Z_scope.
Local Open Scope string_scope.

(** ** Python values that occur in the module *)

(** [str], [bool], [int], tuples [( ... )] and lists [[ ... ]].  Single and
    double quoted string literals denote the same [str]. *)
Inductive value : Type :=
| VStr (s : string)
| VBool (b : bool)
| VInt (n : Z)
| VTuple (items : list value)
| VList (items : list value).

(** A two-element tuple of strings such as [('Python.org', 'http://python.org')]. *)
Definition pair_of (a b : string) : value := VTuple [VStr a; VStr b].

(** One statement of the module: [target = literal]. *)
Record assignment : Type := Assign { target : string; literal : value }.

(** ** Executing a module body *)

(** [target = literal] binds (or rebinds) the name in the namespace. *)
Definition exec_stmt (ns : gmap string value) (a : assignment) : gmap string value :=
  <[target a := literal a]> ns.

(** Statements run top to bottom. *)
Definition exec (body : list assignment) (ns : gmap string value) : gmap string value :=
  foldl exec_stmt ns body.

(** Loading a module runs its body in a fresh, empty namespace. *)
Definition load (body : list assignment) : gmap string value := exec body ∅.

(** The same execution as a big-step relation between namespaces. *)
Inductive runs : list assignment → gmap string value → gmap string value → Prop :=
| runs_done ns : runs [] ns ns
| runs_assign a rest ns ns' :
    runs rest (<[target a := literal a]> ns) ns' →
    runs (a :: rest) ns ns'.

(** Commenting an entry out: every assignment to [name] is dropped from the
    body, the other statements stay where they are. *)
Definition omit (name : string) (body : list assignment) : list assignment :=
  filter (λ a, target a ≠ name) body.

(** The names a body assigns, in order of appearance. *)
Definition targets (body : list assignment) : list string := target <$> body.

(** The literal a body declares for [name], read off the text: the last
    assignment to [name] wins, [None] when there is none. *)
Fixpoint declared (name : string) (body : list assignment) : option value :=
  match body with
  | [] => None
  | a :: rest =>
      match declared name rest with
      | Some v => Some v
      | None => if decide (target a = name) then Some (literal a) else None
      end
  end.

(** ** The module [pelican.conf.py] *)

Module PelicanConf.

Definition DEFAULT_LANG : value := VStr "en".

Definition AUTHOR : value := VStr "Douglas Alan".
Definition SITENAME : value := VStr "The Daily Functor".
Definition SITESUBTITLE : value := VStr "2.0 Steps Forward, 1.0 Steps Back".
Definition SITEURL : value := VStr "http://dailyfunctor.gaffa.org".

Definition GITHUB_URL : value := VStr "http://github.com/nessus42/daily-functor".

Definition DISQUS_SITENAME : value := VStr "dailyfunctor".

Definition FEED_RSS : value := VStr "feeds/all.rss.xml".
Definition CATEGORY_FEED_RSS : value := VStr "feeds/%s.rss.xml".

Definition PDF_GENERATOR : value := VBool false.
Definition REVERSE_CATEGORY_ORDER : value := VBool true.
Definition LOCALE : value := VStr EmptyString.
Definition DEFAULT_PAGINATION : value := VInt 2.
Definition CLEAN_URLS : value := VBool false.

Definition TIMEZONE : value := VStr "America/New_York".

(** Blogroll *)
Definition LINKS : value :=
  VTuple
    [ pair_of "Pelican" "http://docs.notmyidea.org/alexis/pelican/";
      pair_of "Python.org" "http://python.org";
      pair_of "Jinja2" "http://jinja.pocoo.org";
      pair_of "You can modify those links in your config file" "#" ].

(** Social widget *)
Definition SOCIAL : value :=
  VTuple
    [ pair_of "twitter" "http://twitter.com/ametaireau";
      pair_of "lastfm" "http://lastfm.com/user/akounet";
      pair_of "github" "http://github.com/ametaireau" ].

Definition THEME : value := VStr "da-clean".

(** global metadata to all the contents *)
Definition DEFAULT_METADATA : value := VTuple [ pair_of "yeah" "it is" ].

(** static paths will be copied under the same name *)
Definition STATIC_PATHS : value := VList [ VStr "images" ].

(** A list of files to copy from the source to the destination *)
Definition FILES_TO_COPY : value := VTuple [ pair_of "extra/robots.txt" "robots.txt" ].

(** The statements of the module, top to bottom (commented-out lines are
    not statements). *)
Definition module_body : list assignment :=
  [ Assign "DEFAULT_LANG" DEFAULT_LANG;
    Assign "AUTHOR" AUTHOR;
    Assign "SITENAME" SITENAME;
    Assign "SITESUBTITLE" SITESUBTITLE;
    Assign "SITEURL" SITEURL;
    Assign "GITHUB_URL" GITHUB_URL;
    Assign "DISQUS_SITENAME" DISQUS_SITENAME;
    Assign "FEED_RSS" FEED_RSS;
    Assign "CATEGORY_FEED_RSS" CATEGORY_FEED_RSS;
    Assign "PDF_GENERATOR" PDF_GENERATOR;
    Assign "REVERSE_CATEGORY_ORDER" REVERSE_CATEGORY_ORDER;
    Assign "LOCALE" LOCALE;
    Assign "DEFAULT_PAGINATION" DEFAULT_PAGINATION;
    Assign "CLEAN_URLS" CLEAN_URLS;
    Assign "TIMEZONE" TIMEZONE;
    Assign "LINKS" LINKS;
    Assign "SOCIAL" SOCIAL;
    Assign "THEME" THEME;
    Assign "DEFAULT_METADATA" DEFAULT_METADATA;
    Assign "STATIC_PATHS" STATIC_PATHS;
    Assign "FILES_TO_COPY" FILES_TO_COPY ].

(** The configuration record: the namespace after the module has run. *)
Definition settings : gmap string value := load module_body.

End PelicanConf.

(** ** Reading a loaded value *)

(** The elements of a tuple or list value, in order; [None] for a scalar. *)
Definition sequence_items (v : value) : option (list value) :=
  match v with
  | VTuple items | VList items => Some items
  | _ => None
  end.

(** A value read as a pair of strings. *)
Definition as_string_pair (v : value) : option (string * string) :=
  match v with
  | VTuple [VStr a; VStr b] => Some (a, b)
  | _ => None
  end.

(** A value read as a string. *)
Definition as_string (v : value) : option string :=
  match v with
  | VStr s => Some s
  | _ => None
  end.

(** The strings held by a sequence value; [None] if it is not a sequence of
    strings. *)
Definition string_items (v : value) : option (list string) :=
  items ← sequence_items v; mapM as_string items.

(** The pairs held by a sequence value; [None] if it is not a sequence of
    pairs of strings. *)
Definition pair_items (v : value) : option (list (string * string)) :=
  items ← sequence_items v; mapM as_string_pair items.

(** The loaded value of an option read as a sequence of pairs of strings. *)
Definition loaded_pairs (record : gmap string value) (name : string)
  : option (list (string * string)) :=
  v ← record !! name; pair_items v.

(** The loaded value of an option read as a sequence of strings. *)
Definition loaded_strings (record : gmap string value) (name : string)
  : option (list string) :=
  v ← record !! name; string_items v.

(** Modelled from the spec: the option names the site generator recognises
    are fixed by the generator, which is not part of the module; this is the
    list the spec gives, in the spec's order. *)
Definition recognized_options : list string :=
  [ "DEFAULT_LANG"; "SITENAME"; "SITESUBTITLE"; "AUTHOR";
    "SITEURL";
    "GITHUB_URL";
    "DISQUS_SITENAME";
    "FEED_RSS"; "CATEGORY_FEED_RSS";
    "PDF_GENERATOR";
    "REVERSE_CATEGORY_ORDER";
    "LOCALE";
    "DEFAULT_PAGINATION";
    "CLEAN_URLS";
    "TIMEZONE";
    "LINKS";
    "SOCIAL";
    "THEME";
    "DEFAULT_METADATA";
    "STATIC_PATHS";
    "FILES_TO_COPY" ].

(** Modelled from the spec: the site generator and its templates, which
    decide what an option switches on, are not part of the module.  The spec
    says of an optional field that omitting it disables the corresponding
    feature; accordingly the feature of option [name] is on in a record
    exactly when the record has an entry for [name]. *)
Definition feature_enabled (name : string) (record : gmap string value) : bool :=
  bool_decide (is_Some (record !! name)).

(** Membership of a written-out statement in a written-out body. *)
Ltac in_body :=
  repeat first [ apply list_elem_of_here | apply list_elem_of_further ].

(** ** General facts about execution *)

Section ExecFacts.

Implicit Types (body ops : list assignment) (ns : gmap string value) (a : assignment).

Lemma exec_cons a body ns : exec (a :: body) ns = exec body (exec_stmt ns a).
Proof. reflexivity. Qed.

Lemma exec_app body1 body2 ns : exec (body1 ++ body2) ns = exec body2 (exec body1 ns).
Proof. unfold exec. apply foldl_app. Qed.

(** What a name is bound to after a run: the literal of its last assignment,
    or whatever the namespace held before when the body never assigns it. *)
Lemma exec_lookup body ns name :
  exec body ns !! name =
    match declared name body with Some v => Some v | None => ns !! name end.
Proof.
  revert ns. induction body as [|a body IH]; intros ns; [done|].
  rewrite exec_cons, IH. cbn [declared].
  destruct (declared name body) as [v|]; [done|].
  unfold exec_stmt. rewrite lookup_insert. by destruct (decide (target a = name)).
Qed.

Lemma load_lookup body name : load body !! name = declared name body.
Proof.
  unfold load. rewrite exec_lookup, lookup_empty. by destruct (declared name body).
Qed.

Lemma declared_None body name : name ∉ targets body → declared name body = None.
Proof.
  induction body as [|a body IH]; intros Hname; [done|].
  unfold targets in Hname. rewrite fmap_cons in Hname.
  apply not_elem_of_cons in Hname as [Hne Hrest].
  cbn [declared]. rewrite IH by done. by rewrite decide_False.
Qed.

Lemma declared_Some_target body name :
  is_Some (declared name body) → name ∈ targets body.
Proof.
  induction body as [|a body IH]; [by intros [? ?]|]. cbn [declared].
  unfold targets. rewrite fmap_cons.
  destruct (declared name body) as [w|].
  - intros _. apply elem_of_cons. right. by apply IH.
  - destruct (decide (target a = name)) as [<-|]; [|by intros [? ?]].
    intros _. apply elem_of_cons. by left.
Qed.

(** With every name assigned once, a statement's literal is the declared one. *)
Lemma declared_assigned body a :
  NoDup (targets body) → a ∈ body → declared (target a) body = Some (literal a).
Proof.
  induction body as [|b body IH]; intros Hnd Hin.
  - by apply elem_of_nil in Hin.
  - unfold targets in Hnd. rewrite fmap_cons in Hnd.
    apply NoDup_cons in Hnd as [Hfresh Hnd].
    cbn [declared]. apply elem_of_cons in Hin as [->|Hin].
    + rewrite declared_None by done. by rewrite decide_True.
    + by rewrite IH.
Qed.

(** Dropping the assignments to one name. *)
Lemma declared_omit_same body name : declared name (omit name body) = None.
Proof.
  apply declared_None. unfold targets, omit. intros Hin.
  apply list_elem_of_fmap in Hin as (a & -> & Ha).
  apply list_elem_of_filter in Ha as [Hne _]. by apply Hne.
Qed.

Lemma declared_omit_other body name other :
  other ≠ name → declared other (omit name body) = declared other body.
Proof.
  intros Hne. induction body as [|a body IH]; [done|].
  unfold omit in *. destruct (decide (target a = name)) as [Heq|Hneq].
  - rewrite filter_cons_False by (intros Hc; by apply Hc).
    cbn [declared]. rewrite IH. rewrite decide_False by congruence.
    by destruct (declared other body).
  - rewrite filter_cons_True by done. cbn [declared]. by rewrite IH.
Qed.

(** While a body whose names are all distinct is being run, a binding, once
    made, stays as it is until the end of the run. *)
Lemma load_prefix_stable body1 body2 name v :
  NoDup (targets (body1 ++ body2)) →
  load body1 !! name = Some v → load (body1 ++ body2) !! name = Some v.
Proof.
  intros Hnd Hbound. unfold load in *. rewrite exec_app, exec_lookup, Hbound.
  rewrite declared_None; [done|].
  unfold targets in Hnd. rewrite fmap_app in Hnd.
  apply NoDup_app in Hnd as (_ & Hdisj & _). apply Hdisj.
  apply declared_Some_target. rewrite exec_lookup, lookup_empty in Hbound.
  destruct (declared name body1); [by eexists|done].
Qed.

(** The relation and the function describe the same execution. *)
Lemma runs_exec body ns : runs body ns (exec body ns).
Proof.
  revert ns. induction body as [|a body IH]; intros ns.
  - constructor.
  - constructor. apply (IH (exec_stmt ns a)).
Qed.

(** Running a statement whose binding is already in place changes nothing. *)
Lemma exec_stmt_bound ns a :
  ns !! target a = Some (literal a) → exec_stmt ns a = ns.
Proof. intros Hb. unfold exec_stmt. by apply insert_id. Qed.

Lemma exec_bound ops ns :
  Forall (λ a, ns !! target a = Some (literal a)) ops → exec ops ns = ns.
Proof.
  induction 1 as [|a ops Ha _ IH]; [done|].
  by rewrite exec_cons, exec_stmt_bound.
Qed.

End ExecFacts.

Section PelicanConfFacts.

Import PelicanConf.

Lemma module_body_NoDup : NoDup (targets module_body).
Proof. apply (bool_decide_unpack _). vm_compute. exact I. Qed.

Lemma settings_lookup name : settings !! name = declared name module_body.
Proof. apply load_lookup. Qed.

(** The module assigns every recognised option, and nothing else. *)
Lemma recognized_options_targets : recognized_options ≡ₚ targets module_body.
Proof. apply (bool_decide_unpack _). vm_compute. exact I. Qed.

Lemma settings_assigned a :
  a ∈ module_body → settings !! target a = Some (literal a).
Proof.
  intros Hin. rewrite settings_lookup.
  by apply declared_assigned; [apply module_body_NoDup|].
Qed.

End PelicanConfFacts.

(** ** The loaded record *)

Section LoadedValues.

Import PelicanConf.

(** C1. For every recognised option name, loading yields exactly the literal
    the module declares for it: the name is assigned by the module, and the
    literal of its assignment is what the loaded record holds.  The same goes
    for every assignment of the module, and the record has no other entries.
    In particular [DEFAULT_PAGINATION] loads as the integer 2 and
    [CLEAN_URLS] as the boolean false. *)
Theorem load_yields_declared_literals :
  (∀ name, name ∈ recognized_options →
     ∃ v, Assign name v ∈ module_body ∧ settings !! name = Some v)
  ∧ (∀ name v, Assign name v ∈ module_body → settings !! name = Some v)
  ∧ (∀ name, is_Some (settings !! name) ↔ name ∈ targets module_body)
  ∧ settings !! "DEFAULT_PAGINATION" = Some (VInt 2)
  ∧ settings !! "CLEAN_URLS" = Some (VBool false).
Proof.
  split; [|split; [|split; [|split; reflexivity]]].
  - intros name Hin. rewrite recognized_options_targets in Hin.
    apply list_elem_of_fmap in Hin as ([n v] & -> & Ha).
    exists v. split; [exact Ha|]. apply (settings_assigned _ Ha).
  - intros name v Hin. apply (settings_assigned (Assign name v) Hin).
  - intros name. rewrite settings_lookup. split.
    + apply declared_Some_target.
    + intros Hin. apply list_elem_of_fmap in Hin as (a & -> & Ha).
      rewrite <- settings_lookup, (settings_assigned a Ha). by eexists.
Qed.

Lemma load_yields_declared_literals_witness :
  "TIMEZONE" ∈ recognized_options
  ∧ Assign "TIMEZONE" (VStr "America/New_York") ∈ module_body
  ∧ (∃ v, Assign "TIMEZONE" v ∈ module_body ∧ settings !! "TIMEZONE" = Some v)
  ∧ settings !! "TIMEZONE" = Some (VStr "America/New_York").
Proof.
  assert (Hrec : "TIMEZONE" ∈ recognized_options)
    by (unfold recognized_options; in_body).
  assert (Hin : Assign "TIMEZONE" (VStr "America/New_York") ∈ module_body)
    by (unfold module_body; in_body).
  split; [exact Hrec|]. split; [exact Hin|]. split.
  - exact (proj1 load_yields_declared_literals _ Hrec).
  - exact (proj1 (proj2 load_yields_declared_literals) _ _ Hin).
Defined.

(** C2. [LINKS] loads as the sequence of its four blogroll pairs in the
    order they are written, and the first loaded entry is
    [("Pelican", "http://docs.notmyidea.org/alexis/pelican/")]. *)
Theorem LINKS_loads_in_declared_order :
  settings !! "LINKS" = Some LINKS
  ∧ loaded_pairs settings "LINKS" =
      Some [ ("Pelican", "http://docs.notmyidea.org/alexis/pelican/");
             ("Python.org", "http://python.org");
             ("Jinja2", "http://jinja.pocoo.org");
             ("You can modify those links in your config file", "#") ]
  ∧ (loaded_pairs settings "LINKS" ≫= head) =
      Some ("Pelican", "http://docs.notmyidea.org/alexis/pelican/").
Proof. repeat split; reflexivity. Qed.

(** C3. The loaded [STATIC_PATHS] (the list [['images']]) holds strings
    only, and a string is a member of it exactly when it is ["images"]: read
    as a set of strings, it is the singleton of ["images"]. *)
Theorem STATIC_PATHS_is_exactly_images :
  settings !! "STATIC_PATHS" = Some (VList [VStr "images"])
  ∧ ∃ paths : list string,
      loaded_strings settings "STATIC_PATHS" = Some paths
      ∧ (∀ s : string, s ∈ paths ↔ s = "images")
      ∧ (list_to_set paths : gset string) = {[ "images" ]}.
Proof.
  split; [reflexivity|].
  exists ["images"]. split; [reflexivity|]. split.
  - intros s. apply list_elem_of_singleton.
  - cbn [list_to_set foldr]. apply union_empty_r_L.
Qed.

(** C4. [FILES_TO_COPY] loads as a sequence of exactly one pair, the pair
    [("extra/robots.txt", "robots.txt")]. *)
Theorem FILES_TO_COPY_is_one_pair :
  loaded_pairs settings "FILES_TO_COPY" = Some [ ("extra/robots.txt", "robots.txt") ]
  ∧ (length <$> loaded_pairs settings "FILES_TO_COPY") = Some 1%nat.
Proof. split; reflexivity. Qed.

(** C8. [PDF_GENERATOR] and [REVERSE_CATEGORY_ORDER] load as booleans:
    false and true respectively. *)
Theorem flags_load_as_booleans :
  settings !! "PDF_GENERATOR" = Some (VBool false)
  ∧ settings !! "REVERSE_CATEGORY_ORDER" = Some (VBool true).
Proof. split; reflexivity. Qed.

(** C9. [LOCALE] is present in the loaded record and its value is the empty
    string. *)
Theorem LOCALE_loads_as_empty_string :
  "LOCALE" ∈ targets module_body
  ∧ is_Some (settings !! "LOCALE")
  ∧ settings !! "LOCALE" = Some (VStr EmptyString)
  ∧ (String.length <$> (settings !! "LOCALE" ≫= as_string)) = Some 0%nat.
Proof.
  split; [apply (bool_decide_unpack _); vm_compute; exact I|].
  split; [by eexists|]. split; reflexivity.
Qed.

(** C10. [SOCIAL] loads as exactly three (platform, URL) pairs, twitter,
    lastfm, github in that order, and [DEFAULT_METADATA] as exactly the one
    pair [("yeah", "it is")]. *)
Theorem SOCIAL_and_DEFAULT_METADATA_load_as_declared :
  loaded_pairs settings "SOCIAL" =
    Some [ ("twitter", "http://twitter.com/ametaireau");
           ("lastfm", "http://lastfm.com/user/akounet");
           ("github", "http://github.com/ametaireau") ]
  ∧ (length <$> loaded_pairs settings "SOCIAL") = Some 3%nat
  ∧ loaded_pairs settings "DEFAULT_METADATA" = Some [ ("yeah", "it is") ].
Proof. repeat split; reflexivity. Qed.

End LoadedValues.

(** ** Properties of loading *)

Section LoadProperties.

Import PelicanConf.

(** C5. Loading is deterministic: two runs of the same module body from the
    same namespace end in the same record, field for field. *)
Theorem load_deterministic (body : list assignment) (ns r1 r2 : gmap string value) :
  runs body ns r1 → runs body ns r2 →
  r1 = r2 ∧ ∀ name, r1 !! name = r2 !! name.
Proof.
  intros Hrun1. revert r2.
  induction Hrun1 as [ns|a rest ns r1 _ IH]; intros r2 Hrun2.
  - inversion Hrun2; subst. by split.
  - inversion Hrun2; subst. by apply IH.
Qed.

Lemma load_deterministic_witness :
  runs module_body ∅ settings
  ∧ runs module_body ∅ (exec module_body ∅)
  ∧ settings = exec module_body ∅.
Proof.
  split; [apply runs_exec|]. split; [apply runs_exec|].
  apply (load_deterministic module_body ∅); apply runs_exec.
Defined.

(** C6. A module from which the assignment to an option is left out still
    loads: the run ends in a record, the record has no entry for that option,
    so its feature is off, and every other option loads as before.  For
    [GITHUB_URL]: the banner is on in the record of the module as written and
    off in the record of the module without that entry. *)
Theorem omitted_field_disables_feature :
  (∀ (body : list assignment) (name : string),
      (∃ record, runs (omit name body) ∅ record ∧ record = load (omit name body))
      ∧ load (omit name body) !! name = None
      ∧ feature_enabled name (load (omit name body)) = false
      ∧ ∀ other, other ≠ name → load (omit name body) !! other = load body !! other)
  ∧ feature_enabled "GITHUB_URL" settings = true
  ∧ feature_enabled "GITHUB_URL" (load (omit "GITHUB_URL" module_body)) = false
  ∧ length (omit "GITHUB_URL" module_body) = 20%nat.
Proof.
  split; [|repeat split; reflexivity].
  intros body name.
  assert (Hnone : load (omit name body) !! name = None)
    by (rewrite load_lookup; apply declared_omit_same).
  split; [eexists; split; [apply runs_exec|reflexivity]|].
  split; [exact Hnone|]. split.
  - unfold feature_enabled. rewrite Hnone.
    apply bool_decide_eq_false. by intros [? ?].
  - intros other Hne. rewrite !load_lookup. by apply declared_omit_other.
Qed.

Lemma omitted_field_disables_feature_witness :
  "THEME" ≠ "GITHUB_URL"
  ∧ load (omit "GITHUB_URL" module_body) !! "THEME" = settings !! "THEME".
Proof.
  assert (Hne : "THEME" ≠ "GITHUB_URL") by discriminate.
  split; [exact Hne|].
  destruct (proj1 omitted_field_disables_feature module_body "GITHUB_URL")
    as (_ & _ & _ & Hother).
  exact (Hother "THEME" Hne).
Defined.

(** C7. The record is populated once and not mutated afterwards.  While the
    module is loading, a field that has been set keeps its value to the end
    (each name is assigned once).  After the load, the only operations the
    module defines are its assignments, and running any sequence of them on
    the loaded record leaves the record, hence every field, as it was at load
    time. *)
Theorem settings_never_mutated :
  (∀ (body1 body2 : list assignment) (name : string) (v : value),
      module_body = (body1 ++ body2)%list →
      load body1 !! name = Some v → settings !! name = Some v)
  ∧ (∀ ops : list assignment,
      Forall (λ op, op ∈ module_body) ops →
      exec ops settings = settings
      ∧ ∀ name, exec ops settings !! name = settings !! name).
Proof.
  split.
  - intros body1 body2 name v Hsplit Hbound. unfold settings. rewrite Hsplit.
    apply load_prefix_stable; [|done]. rewrite <- Hsplit. apply module_body_NoDup.
  - intros ops Hops.
    assert (Hsame : exec ops settings = settings).
    { apply exec_bound. eapply Forall_impl; [exact Hops|].
      intros a Ha. by apply settings_assigned. }
    split; [exact Hsame|]. intros name. by rewrite Hsame.
Qed.

Lemma settings_never_mutated_witness :
  (module_body = (take 5 module_body ++ drop 5 module_body)%list
   ∧ load (take 5 module_body) !! "AUTHOR" = Some (VStr "Douglas Alan")
   ∧ settings !! "AUTHOR" = Some (VStr "Douglas Alan"))
  ∧ (Forall (λ op, op ∈ module_body)
       [Assign "THEME" THEME; Assign "STATIC_PATHS" STATIC_PATHS; Assign "THEME" THEME]
     ∧ exec [Assign "THEME" THEME; Assign "STATIC_PATHS" STATIC_PATHS; Assign "THEME" THEME]
            settings = settings).
Proof.
  split.
  - split; [reflexivity|]. split; [reflexivity|].
    apply (proj1 settings_never_mutated (take 5 module_body) (drop 5 module_body));
      reflexivity.
  - assert (Hops : Forall (λ op, op ∈ module_body)
              [Assign "THEME" THEME; Assign "STATIC_PATHS" STATIC_PATHS; Assign "THEME" THEME])
      by (repeat apply Forall_cons_2; try apply Forall_nil_2; unfold module_body; in_body).
    split; [exact Hops|].
    exact (proj1 (proj2 settings_never_mutated _ Hops)).
Defined.

End LoadProperties.

(** ** Further properties of the module's statements *)

Section StatementFacts.

Implicit Types (body : list assignment) (ns : gmap string value) (a : assignment).

Lemma declared_is_Some body name :
  name ∈ targets body → is_Some (declared name body).
Proof.
  induction body as [|a body IH]; intros Hin.
  - by apply elem_of_nil in Hin.
  - unfold targets in Hin. rewrite fmap_cons in Hin. cbn [declared].
    apply elem_of_cons in Hin as [->|Hin].
    + destruct (declared (target a) body); [by eexists|].
      rewrite decide_True by done. by eexists.
    + destruct (IH Hin) as [v ->]. by eexists.
Qed.

(** A declared literal always comes from a statement of the body. *)
Lemma declared_from_statement body name v :
  declared name body = Some v → Assign name v ∈ body.
Proof.
  induction body as [|[n w] body IH]; [done|]. cbn [declared target literal].
  destruct (declared name body) as [u|].
  - intros [= ->]. apply elem_of_cons. right. by apply IH.
  - destruct (decide (n = name)) as [->|]; [|done].
    intros [= ->]. apply elem_of_cons. by left.
Qed.

(** With every name assigned once, what is declared does not depend on the
    order of the statements. *)
Lemma declared_permutation body body' name :
  NoDup (targets body) → body ≡ₚ body' → declared name body = declared name body'.
Proof.
  intros Hnd Hperm.
  assert (Hnd' : NoDup (targets body')).
  { unfold targets in *. by rewrite <- Hperm. }
  destruct (declared name body) as [v|] eqn:Hd.
  - apply declared_from_statement in Hd. rewrite Hperm in Hd.
    symmetry. exact (declared_assigned body' (Assign name v) Hnd' Hd).
  - destruct (declared name body') as [w|] eqn:Hd'; [|done].
    apply declared_from_statement in Hd'. rewrite <- Hperm in Hd'.
    pose proof (declared_assigned body (Assign name w) Hnd Hd') as Hw.
    cbn [target literal] in Hw. congruence.
Qed.

(** Running a body over a namespace overlays what the body loads on it. *)
Lemma exec_overlay body ns : exec body ns = load body ∪ ns.
Proof.
  apply map_eq. intros name.
  rewrite exec_lookup, lookup_union, load_lookup.
  destruct (declared name body), (ns !! name); done.
Qed.

End StatementFacts.

Section ModuleProperties.

Import PelicanConf.

(** X1. The order of the module's statements does not matter: every
    rearrangement of them loads the same record. *)
Theorem load_order_irrelevant (body' : list assignment) :
  body' ≡ₚ module_body → load body' = settings.
Proof.
  intros Hperm. apply map_eq. intros name.
  rewrite settings_lookup, load_lookup. symmetry.
  apply declared_permutation; [apply module_body_NoDup|done].
Qed.

Lemma load_order_irrelevant_witness :
  reverse module_body ≡ₚ module_body ∧ load (reverse module_body) = settings.
Proof.
  assert (Hperm : reverse module_body ≡ₚ module_body) by apply reverse_Permutation.
  split; [exact Hperm|]. exact (load_order_irrelevant _ Hperm).
Defined.

(** X2. Run in a namespace that already holds bindings, the module rebinds
    the names it assigns to the same values as in a fresh namespace, whatever
    they were bound to before, and leaves every other binding as it was. *)
Theorem exec_module_frame (ns : gmap string value) :
  exec module_body ns = settings ∪ ns
  ∧ (∀ name, name ∈ targets module_body →
       exec module_body ns !! name = settings !! name)
  ∧ (∀ name, name ∉ targets module_body →
       exec module_body ns !! name = ns !! name).
Proof.
  split; [apply exec_overlay|]. split; intros name Hname.
  - rewrite exec_lookup, settings_lookup.
    by destruct (declared_is_Some _ _ Hname) as [v ->].
  - by rewrite exec_lookup, declared_None.
Qed.

Lemma exec_module_frame_witness :
  ("THEME" ∈ targets module_body
   ∧ exec module_body ({[ "THEME" := VStr "mnmlist" ]}) !! "THEME" = settings !! "THEME")
  ∧ (("CSS_FILE" ∉ targets module_body)
     ∧ exec module_body ({[ "CSS_FILE" := VStr "style.css" ]}) !! "CSS_FILE"
       = Some (VStr "style.css")).
Proof.
  assert (Hin : "THEME" ∈ targets module_body)
    by (apply (bool_decide_unpack _); vm_compute; exact I).
  assert (Hout : "CSS_FILE" ∉ targets module_body)
    by (apply (bool_decide_unpack _); vm_compute; exact I).
  split; (split; [assumption|]).
  - exact (proj1 (proj2 (exec_module_frame _)) _ Hin).
  - rewrite (proj2 (proj2 (exec_module_frame _)) _ Hout). reflexivity.
Defined.

(** X3. An assignment that is followed, later in the body, by another
    assignment to the same name has no effect on the result of the run. *)
Theorem shadowed_assignment_has_no_effect
    (body1 body2 : list assignment) (a : assignment) (ns : gmap string value) :
  target a ∈ targets body2 →
  exec (body1 ++ a :: body2)%list ns = exec (body1 ++ body2)%list ns.
Proof.
  intros Hlater. rewrite !exec_app. apply map_eq. intros name.
  rewrite !exec_lookup. cbn [declared].
  destruct (declared name body2) as [v|] eqn:Hd; [done|].
  rewrite decide_False; [done|]. intros <-.
  destruct (declared_is_Some _ _ Hlater) as [v Hv]. congruence.
Qed.

Lemma shadowed_assignment_has_no_effect_witness :
  "SITEURL" ∈ targets (drop 4 module_body)
  ∧ load (take 4 module_body
          ++ Assign "SITEURL" (VStr "http://nessus42.github.com/daily-functor")
             :: drop 4 module_body)%list
    = settings.
Proof.
  assert (Hin : "SITEURL" ∈ targets (drop 4 module_body))
    by (apply (bool_decide_unpack _); vm_compute; exact I).
  split; [exact Hin|].
  exact (shadowed_assignment_has_no_effect (take 4 module_body) (drop 4 module_body)
           (Assign "SITEURL" (VStr "http://nessus42.github.com/daily-functor")) ∅ Hin).
Defined.

End ModuleProperties.
